(** * BitrateConstraint: the bitrate-feasibility adaptation constraint

    A shallow embedding of [video/adaptation/bitrate_constraint.cc]:
    the free function [IsSimulcast], the two update entry points and the
    decision query [IsAdaptationUpAllowed] of [BitrateConstraint],
    followed by the properties the specification states about them. *)

From Stdlib Require Import ZArith List Bool Lia.
Import ListNotations.

Local Open Scope Z_scope.

(* ================================================================= *)
(** ** Machine integers *)

(** [uint32_t] and [int] values are integers of [Z]; a conversion to
    [uint32_t] reduces modulo [2^32]. *)
Definition uint32_modulus : Z := 2 ^ 32.

Definition static_cast_uint32 (z : Z) : Z := z mod uint32_modulus.

(** The values an [int] holds. *)
Definition int_range (z : Z) : Prop := - 2 ^ 31 <= z < 2 ^ 31.

(** The values a [uint32_t] holds. *)
Definition uint32_range (z : Z) : Prop := 0 <= z < uint32_modulus.

(** [absl::optional<T>::value_or]. *)
Definition value_or {A : Type} (o : option A) (d : A) : A :=
  match o with
  | Some a => a
  | None => d
  end.

(* ================================================================= *)
(** ** Outcomes of a call *)

(** A call either returns, or leaves defined behaviour: [OutOfBounds]
    marks an access outside a vector ([operator[]] past the end), after
    which the language promises nothing, and [CheckFailure] a failed
    [RTC_DCHECK]. *)
Inductive fault : Type :=
| OutOfBounds
| CheckFailure.

Inductive outcome (A : Type) : Type :=
| Returns (a : A)
| Faults (f : fault).

Arguments Returns {A} a.
Arguments Faults {A} f.

(* ================================================================= *)
(** ** Data model *)

(** Modelled from the spec: [VideoStream], one simulcast layer of the
    encoder configuration, "each with an active flag and resolution";
    its declaration is in a header outside this file.  Only [active] is
    read here. *)
Record VideoStream : Type := {
  width : Z;
  height : Z;
  active : bool
}.

(** Modelled from the spec: [VideoEncoderConfig], of which this file
    reads the member [simulcast_layers], a [std::vector<VideoStream>]. *)
Record VideoEncoderConfig : Type := {
  simulcast_layers : list VideoStream
}.

(** Modelled from the spec: [VideoEncoder::ResolutionBitrateLimits], one
    entry of the encoder's capability table.  Both members are [int]:
    the source converts [min_start_bitrate_bps] to [uint32_t] before it
    compares. *)
Record ResolutionBitrateLimits : Type := {
  frame_size_pixels : Z;
  min_start_bitrate_bps : Z
}.

(** What this file calls but does not define.  The types are opaque to
    the constraint; the functions are those of
    [call/adaptation/video_stream_adapter.h],
    [VideoStreamEncoderResourceManager] and [VideoEncoder::EncoderInfo];
    [RTC_DCHECK_IS_ON] is the build flag that decides whether
    [RTC_DCHECK]s are compiled in.  The [int] parameter of
    [GetHigherResolutionThan] receives the [uint32_t] pixel count. *)
Class Collaborators : Type := {
  VideoStreamInputState : Type;
  VideoSourceRestrictions : Type;
  VideoCodec : Type;
  EncoderInfo : Type;
  RTC_DCHECK_IS_ON : bool;
  DidIncreaseResolution :
    VideoSourceRestrictions -> VideoSourceRestrictions -> bool;
  GetSingleActiveLayerPixels : VideoCodec -> option Z;
  GetHigherResolutionThan : Z -> Z;
  GetEncoderBitrateLimitsForResolution :
    EncoderInfo -> Z -> option ResolutionBitrateLimits
}.

(** [EncoderSettings]: the three accessors the query uses. *)
Record EncoderSettings `{Collaborators} : Type := {
  encoder_info : EncoderInfo;
  encoder_config : VideoEncoderConfig;
  video_codec : VideoCodec
}.

(** The two members of [BitrateConstraint] that hold data.
    [sequence_checker_] only asserts that every entry point runs on one
    sequence; the model is sequential. *)
Record BitrateConstraint `{Collaborators} : Type := {
  encoder_settings_ : option EncoderSettings;
  encoder_target_bitrate_bps_ : option Z
}.

(* ================================================================= *)
(** ** IsSimulcast *)

(** [std::count_if] over the layers; the count is at most the number of
    layers and is kept exact. *)
Definition count_if {A : Type} (p : A -> bool) (l : list A) : Z :=
  Z.of_nat (length (filter p l)).

(** [simulcast_layers[0]] is read whatever the size of the vector; on
    an empty vector the read is undefined behaviour, and no value is
    given to the call. *)
Definition IsSimulcast (encoder_config : VideoEncoderConfig) : outcome bool :=
  let simulcast_layers := simulcast_layers encoder_config in
  let is_simulcast := (1 <? length simulcast_layers)%nat in
  match nth_error simulcast_layers 0 with
  | None => Faults OutOfBounds
  | Some lowest_layer =>
      let is_lowest_layer_active := active lowest_layer in
      let num_active_layers := count_if active simulcast_layers in
      Returns (is_simulcast && ((1 <? num_active_layers) || is_lowest_layer_active))
  end.

(** The words of the specification about a configuration, stated on the
    layers themselves and apart from the way the code counts. *)

(** The resolution of a layer, in pixels. *)
Definition pixels (layer : VideoStream) : Z := width layer * height layer.

(** "More than one layer is active": two different positions hold an
    active layer. *)
Definition more_than_one_active (layers : list VideoStream) : Prop :=
  exists i j layer_i layer_j,
    i <> j /\
    nth_error layers i = Some layer_i /\
    nth_error layers j = Some layer_j /\
    active layer_i = true /\ active layer_j = true.

(** A layer of the list that no other layer undercuts in resolution. *)
Definition lowest_resolution_layer (layers : list VideoStream)
    (layer : VideoStream) : Prop :=
  In layer layers /\
  forall other, In other layers -> pixels layer <= pixels other.

(** Simulcast in the words of the specification: more than one
    configured layer, and more than one layer active or the
    lowest-resolution layer active. *)
Definition simulcast_as_claimed (encoder_config : VideoEncoderConfig) : Prop :=
  (1 < length (simulcast_layers encoder_config))%nat /\
  (more_than_one_active (simulcast_layers encoder_config) \/
   exists layer,
     lowest_resolution_layer (simulcast_layers encoder_config) layer /\
     active layer = true).

(** The same with the layer at position 0 in the place of the
    lowest-resolution layer. *)
Definition simulcast_first_layer (encoder_config : VideoEncoderConfig) : Prop :=
  (1 < length (simulcast_layers encoder_config))%nat /\
  (more_than_one_active (simulcast_layers encoder_config) \/
   exists first,
     nth_error (simulcast_layers encoder_config) 0 = Some first /\
     active first = true).

(** The layers are listed with the lowest resolution first: every later
    layer has more pixels than the one at position 0. *)
Definition lowest_resolution_first (layers : list VideoStream) : Prop :=
  match layers with
  | [] => True
  | first :: rest => Forall (fun other => pixels first < pixels other) rest
  end.

(* ================================================================= *)
(** ** Methods: calls that run on the object *)

Section Calls.
Context `{Collaborators}.

(** A method runs on the object and may stop with a fault. *)
Definition Method (A : Type) : Type :=
  BitrateConstraint -> outcome A * BitrateConstraint.

Definition ret {A : Type} (a : A) : Method A :=
  fun this => (Returns a, this).

Definition bind {A B : Type} (m : Method A) (k : A -> Method B) : Method B :=
  fun this =>
    match m this with
    | (Returns a, this') => k a this'
    | (Faults f, this') => (Faults f, this')
    end.

(** Reading a member. *)
Definition member {A : Type} (field : BitrateConstraint -> A) : Method A :=
  fun this => (Returns (field this), this).

(** A call of a function that has no access to the object. *)
Definition call {A : Type} (r : outcome A) : Method A :=
  fun this => (r, this).

(** [RTC_DCHECK_GE(a, b)]: compares as integers, and stops only where
    checks are compiled in. *)
Definition RTC_DCHECK_GE (a b : Z) : Method unit :=
  fun this =>
    if RTC_DCHECK_IS_ON && negb (b <=? a)
    then (Faults CheckFailure, this)
    else (Returns tt, this).

(** The value a call returns and the object it leaves. *)
Definition result {A : Type} (m : Method A) (this : BitrateConstraint)
  : outcome A := fst (m this).

Definition object_after {A : Type} (m : Method A) (this : BitrateConstraint)
  : BitrateConstraint := snd (m this).

End Calls.

Notation "x <- m ;; k" := (bind m (fun x => k))
  (at level 61, m at next level, right associativity).
Notation "m ;; k" := (bind m (fun _ => k))
  (at level 61, right associativity).

(* ================================================================= *)
(** ** The methods of BitrateConstraint *)

Section Methods.
Context `{Collaborators}.

(** The constructor. *)
Definition BitrateConstraint_new : BitrateConstraint :=
  {| encoder_settings_ := None; encoder_target_bitrate_bps_ := None |}.

Definition OnEncoderSettingsUpdated
    (encoder_settings : option EncoderSettings) : Method unit :=
  fun this =>
    (Returns tt,
     {| encoder_settings_ := encoder_settings;
        encoder_target_bitrate_bps_ := encoder_target_bitrate_bps_ this |}).

Definition OnEncoderTargetBitrateUpdated
    (encoder_target_bitrate_bps : option Z) : Method unit :=
  fun this =>
    (Returns tt,
     {| encoder_settings_ := encoder_settings_ this;
        encoder_target_bitrate_bps_ := encoder_target_bitrate_bps |}).

Definition IsAdaptationUpAllowed
    (input_state : VideoStreamInputState)
    (restrictions_before restrictions_after : VideoSourceRestrictions)
  : Method bool :=
  if DidIncreaseResolution restrictions_before restrictions_after then
    settings <- member encoder_settings_ ;;
    match settings with
    | None => ret true
    | Some settings =>
        target <- member encoder_target_bitrate_bps_ ;;
        let bitrate_bps := value_or target 0 in
        if bitrate_bps =? 0 then ret true else
        simulcast <- call (IsSimulcast (encoder_config settings)) ;;
        if simulcast then ret true else
        match GetSingleActiveLayerPixels (video_codec settings) with
        | None => ret true
        | Some current_frame_size_px =>
            match GetEncoderBitrateLimitsForResolution
                    (encoder_info settings)
                    (GetHigherResolutionThan current_frame_size_px) with
            | Some bitrate_limits =>
                RTC_DCHECK_GE (frame_size_pixels bitrate_limits)
                              current_frame_size_px ;;
                ret (static_cast_uint32 (min_start_bitrate_bps bitrate_limits)
                       <=? bitrate_bps)
            | None => ret true
            end
        end
    end
  else ret true.

(** The query called [n] times in a row, its answers dropped. *)
Fixpoint IsAdaptationUpAllowed_times (n : nat)
    (input_state : VideoStreamInputState)
    (restrictions_before restrictions_after : VideoSourceRestrictions)
  : Method unit :=
  match n with
  | O => ret tt
  | S n' =>
      IsAdaptationUpAllowed input_state restrictions_before restrictions_after ;;
      IsAdaptationUpAllowed_times n' input_state
        restrictions_before restrictions_after
  end.

(** The states and restriction pairs on which the query gets as far as
    its comparison: a resolution increase, settings stored, a target
    bitrate that is not 0, a configuration that is not simulcast, a
    pixel count [P] for the single active layer, and the entry [limits]
    found for the resolution above [P]. *)
Definition singlecast_limit_applies (this : BitrateConstraint)
    (restrictions_before restrictions_after : VideoSourceRestrictions)
    (settings : EncoderSettings) (P : Z) (limits : ResolutionBitrateLimits)
  : Prop :=
  DidIncreaseResolution restrictions_before restrictions_after = true /\
  encoder_settings_ this = Some settings /\
  value_or (encoder_target_bitrate_bps_ this) 0 <> 0 /\
  IsSimulcast (encoder_config settings) = Returns false /\
  GetSingleActiveLayerPixels (video_codec settings) = Some P /\
  GetEncoderBitrateLimitsForResolution
    (encoder_info settings) (GetHigherResolutionThan P) = Some limits.

End Methods.

(* ================================================================= *)
(** ** A concrete set of collaborators *)

(** The functions this file calls, in the behaviour the specification
    gives them; the theorems below hold for every [Collaborators], and
    this instance supplies concrete inputs. *)
Module Reference.

(** Modelled from the spec: a restriction set, "a cap on encoder output
    (e.g. max pixel count)"; [VideoSourceRestrictions] is declared
    outside this file.  No cap means unrestricted. *)
Record Restrictions : Type := {
  max_pixels_per_frame : option Z
}.

(** Modelled from the spec: [DidIncreaseResolution], defined outside
    this file: "[restrictions_after] is strictly less restrictive on
    resolution than [restrictions_before]". *)
Definition did_increase_resolution (before after : Restrictions) : bool :=
  match max_pixels_per_frame before, max_pixels_per_frame after with
  | None, _ => false
  | Some _, None => true
  | Some b, Some a => b <? a
  end.

(** Modelled from the spec: [GetSingleActiveLayerPixels], defined
    outside this file: the pixel count of the single active layer of the
    codec description, unknown unless exactly one layer is active. *)
Definition single_active_layer_pixels (codec : list VideoStream) : option Z :=
  match filter active codec with
  | [layer] => Some (width layer * height layer)
  | _ => None
  end.

(** Modelled from the spec: [GetHigherResolutionThan] followed by
    [GetEncoderBitrateLimitsForResolution], both defined outside this
    file: together "the bitrate-limit entry for the smallest tabulated
    resolution strictly greater than the current pixel count". *)
Definition higher_resolution_than (pixel_count : Z) : Z := pixel_count + 1.

Fixpoint limits_for_resolution (table : list ResolutionBitrateLimits)
    (frame_size : Z) : option ResolutionBitrateLimits :=
  match table with
  | [] => None
  | entry :: rest =>
      let best := limits_for_resolution rest frame_size in
      if frame_size <=? frame_size_pixels entry then
        match best with
        | Some b =>
            if frame_size_pixels b <? frame_size_pixels entry
            then Some b else Some entry
        | None => Some entry
        end
      else best
  end.

(** Checks compiled in, as in a debug build. *)
#[export] Instance collaborators : Collaborators := {|
  VideoStreamInputState := unit;
  VideoSourceRestrictions := Restrictions;
  VideoCodec := list VideoStream;
  EncoderInfo := list ResolutionBitrateLimits;
  RTC_DCHECK_IS_ON := true;
  DidIncreaseResolution := did_increase_resolution;
  GetSingleActiveLayerPixels := single_active_layer_pixels;
  GetHigherResolutionThan := higher_resolution_than;
  GetEncoderBitrateLimitsForResolution := limits_for_resolution
|}.

Definition layer (w h : Z) (on : bool) : VideoStream :=
  {| width := w; height := h; active := on |}.

Definition limit (pixels start_bps : Z) : ResolutionBitrateLimits :=
  {| frame_size_pixels := pixels; min_start_bitrate_bps := start_bps |}.

Definition cap (pixels : Z) : Restrictions :=
  {| max_pixels_per_frame := Some pixels |}.

Definition uncapped : Restrictions := {| max_pixels_per_frame := None |}.

(** One layer of 640x360, and the tier 1280x720 tabulated with a minimum
    start bitrate. *)
Definition settings_360p (start_720p_bps : Z) : EncoderSettings :=
  {| encoder_info := [limit (1280 * 720) start_720p_bps];
     encoder_config := {| simulcast_layers := [layer 640 360 true] |};
     video_codec := [layer 640 360 true] |}.

(** Three configured layers, the upper two active. *)
Definition settings_simulcast : EncoderSettings :=
  {| encoder_info := [limit (1280 * 720) 1500000];
     encoder_config :=
       {| simulcast_layers :=
            [layer 320 180 false; layer 640 360 true; layer 1280 720 true] |};
     video_codec :=
       [layer 320 180 false; layer 640 360 true; layer 1280 720 true] |}.

(** Settings whose configuration lists no layer at all. *)
Definition settings_no_layers : EncoderSettings :=
  {| encoder_info := [limit (1280 * 720) 1500000];
     encoder_config := {| simulcast_layers := [] |};
     video_codec := [layer 640 360 true] |}.

(** One layer of 1280x720 and a table that stops at 1280x720. *)
Definition settings_720p_top : EncoderSettings :=
  {| encoder_info := [limit (640 * 360) 500000; limit (1280 * 720) 1500000];
     encoder_config := {| simulcast_layers := [layer 1280 720 true] |};
     video_codec := [layer 1280 720 true] |}.

Definition constraint (settings : option EncoderSettings)
    (target_bps : option Z) : BitrateConstraint :=
  {| encoder_settings_ := settings;
     encoder_target_bitrate_bps_ := target_bps |}.

End Reference.

(* ================================================================= *)
(** ** Sequences of updates *)

Section Notifications.
Context `{Collaborators}.

(** What the encoder pipeline pushes into the constraint: new settings
    or a new target bitrate. *)
Inductive Update : Type :=
| SettingsUpdate (encoder_settings : option EncoderSettings)
| TargetBitrateUpdate (encoder_target_bitrate_bps : option Z).

Definition notify (u : Update) : Method unit :=
  match u with
  | SettingsUpdate encoder_settings =>
      OnEncoderSettingsUpdated encoder_settings
  | TargetBitrateUpdate encoder_target_bitrate_bps =>
      OnEncoderTargetBitrateUpdated encoder_target_bitrate_bps
  end.

(** The updates of a list, pushed one after the other. *)
Fixpoint notify_all (updates : list Update) : Method unit :=
  match updates with
  | [] => ret tt
  | u :: rest => notify u ;; notify_all rest
  end.

(** The settings pushed last in a list of updates, [stored] if none. *)
Fixpoint last_settings (updates : list Update)
    (stored : option EncoderSettings) : option EncoderSettings :=
  match updates with
  | [] => stored
  | SettingsUpdate encoder_settings :: rest =>
      last_settings rest encoder_settings
  | TargetBitrateUpdate _ :: rest => last_settings rest stored
  end.

(** The target bitrate pushed last in a list of updates, [stored] if
    none. *)
Fixpoint last_target_bitrate (updates : list Update)
    (stored : option Z) : option Z :=
  match updates with
  | [] => stored
  | SettingsUpdate _ :: rest => last_target_bitrate rest stored
  | TargetBitrateUpdate encoder_target_bitrate_bps :: rest =>
      last_target_bitrate rest encoder_target_bitrate_bps
  end.

End Notifications.

(* ================================================================= *)
(** ** Running a method *)

(** Unfolds the monadic plumbing of a call. *)
Ltac run_method :=
  unfold result, object_after, IsAdaptationUpAllowed,
    OnEncoderSettingsUpdated, OnEncoderTargetBitrateUpdated,
    bind, member, call, ret, RTC_DCHECK_GE in *; cbn [fst snd] in *.


(* ================================================================= *)
(** ** Conversions *)

Lemma static_cast_uint32_in_range (z : Z) : uint32_range (static_cast_uint32 z).
Proof.
  unfold uint32_range, static_cast_uint32, uint32_modulus.
  apply Z.mod_pos_bound. lia.
Qed.

Lemma static_cast_uint32_same (z : Z) :
  uint32_range z -> static_cast_uint32 z = z.
Proof.
  unfold uint32_range, static_cast_uint32. intros Hz.
  apply Z.mod_small. exact Hz.
Qed.

Lemma static_cast_uint32_negative (z : Z) :
  int_range z -> z < 0 -> static_cast_uint32 z = z + uint32_modulus.
Proof.
  unfold int_range, static_cast_uint32, uint32_modulus. intros Hz Hneg.
  symmetry. apply (Z.mod_unique z (2 ^ 32) (-1) (z + 2 ^ 32)); lia.
Qed.

(* ================================================================= *)
(** ** IsSimulcast *)

Lemma IsSimulcast_no_layers (config : VideoEncoderConfig) :
  simulcast_layers config = [] -> IsSimulcast config = Faults OutOfBounds.
Proof.
  intros Hnil. unfold IsSimulcast. rewrite Hnil. reflexivity.
Qed.

Lemma IsSimulcast_some_layers (config : VideoEncoderConfig) lowest rest :
  simulcast_layers config = lowest :: rest ->
  IsSimulcast config =
  Returns ((1 <? length (lowest :: rest))%nat &&
           ((1 <? count_if active (lowest :: rest)) || active lowest)).
Proof.
  intros Hcons. unfold IsSimulcast. rewrite Hcons. reflexivity.
Qed.

Lemma count_if_cons {A : Type} (p : A -> bool) (x : A) (l : list A) :
  count_if p (x :: l) = (if p x then 1 else 0) + count_if p l.
Proof.
  unfold count_if. cbn [filter]. destruct (p x); cbn [length]; lia.
Qed.

Lemma count_if_nonneg {A : Type} (p : A -> bool) (l : list A) :
  0 <= count_if p l.
Proof. unfold count_if. lia. Qed.

(** The count is positive exactly when some position holds an active
    layer. *)
Lemma count_if_active_positive (layers : list VideoStream) :
  0 < count_if active layers <->
  exists i layer, nth_error layers i = Some layer /\ active layer = true.
Proof.
  induction layers as [|x layers IH].
  - split; [unfold count_if; cbn; lia|].
    intros (i & layer & Hi & _). destruct i; discriminate.
  - rewrite count_if_cons. split.
    + intros Hpos. destruct (active x) eqn:Hx.
      * exists 0%nat, x. split; [reflexivity | exact Hx].
      * destruct IH as [IH _].
        destruct IH as (i & layer & Hi & Hact); [lia|].
        exists (S i), layer. split; assumption.
    + intros (i & layer & Hi & Hact). destruct i as [|i]; cbn in Hi.
      * injection Hi as ->. rewrite Hact.
        pose proof (count_if_nonneg active layers). lia.
      * assert (0 < count_if active layers)
          by (apply IH; exists i, layer; split; assumption).
        destruct (active x); lia.
Qed.

(** The count exceeds 1 exactly when two different positions hold an
    active layer. *)
Lemma more_than_one_active_count (layers : list VideoStream) :
  more_than_one_active layers <-> 1 < count_if active layers.
Proof.
  unfold more_than_one_active. induction layers as [|x layers IH].
  - split; [|unfold count_if; cbn; lia].
    intros (i & j & li & lj & _ & Hi & _). destruct i; discriminate.
  - rewrite count_if_cons. split.
    + intros (i & j & li & lj & Hne & Hi & Hj & Hai & Haj).
      destruct i as [|i], j as [|j]; cbn in Hi, Hj.
      * exfalso. apply Hne. reflexivity.
      * injection Hi as ->. rewrite Hai.
        assert (0 < count_if active layers)
          by (apply count_if_active_positive; exists j, lj; split; assumption).
        lia.
      * injection Hj as ->. rewrite Haj.
        assert (0 < count_if active layers)
          by (apply count_if_active_positive; exists i, li; split; assumption).
        lia.
      * assert (1 < count_if active layers).
        { apply IH. exists i, j, li, lj.
          repeat split; try assumption. intros Heq. apply Hne. f_equal. exact Heq. }
        destruct (active x); lia.
    + intros Hmany. destruct (active x) eqn:Hx.
      * assert (Hpos : 0 < count_if active layers) by lia.
        apply count_if_active_positive in Hpos.
        destruct Hpos as (k & lk & Hk & Hact).
        exists 0%nat, (S k), x, lk.
        split; [discriminate|]. repeat split; assumption.
      * destruct IH as [_ IH].
        destruct IH as (i & j & li & lj & Hne & Hi & Hj & Hai & Haj); [lia|].
        exists (S i), (S j), li, lj.
        split; [intros Heq; apply Hne; injection Heq as Heq; exact Heq|].
        repeat split; assumption.
Qed.

(** On a configuration with a layer, the value the function returns is
    the classification by the layer at position 0. *)
Lemma IsSimulcast_first_layer_iff (config : VideoEncoderConfig) lowest rest :
  simulcast_layers config = lowest :: rest ->
  simulcast_first_layer config <->
  (1 <? length (lowest :: rest))%nat &&
  ((1 <? count_if active (lowest :: rest)) || active lowest) = true.
Proof.
  intros Hcons. unfold simulcast_first_layer. rewrite Hcons.
  rewrite andb_true_iff, orb_true_iff, Nat.ltb_lt, Z.ltb_lt.
  rewrite more_than_one_active_count. cbn [nth_error].
  split; intros [Hsize [Hmany | Hfirst]]; split; try exact Hsize;
    try (left; exact Hmany); right.
  - destruct Hfirst as (first & Heq & Hact). injection Heq as ->. exact Hact.
  - exists lowest. split; [reflexivity | exact Hfirst].
Qed.

Lemma IsSimulcast_first_layer (config : VideoEncoderConfig) :
  simulcast_layers config <> [] ->
  (simulcast_first_layer config -> IsSimulcast config = Returns true) /\
  (~ simulcast_first_layer config -> IsSimulcast config = Returns false).
Proof.
  intros Hlayers.
  destruct (simulcast_layers config) as [|lowest rest] eqn:Hcons; [congruence|].
  rewrite (IsSimulcast_some_layers config lowest rest Hcons).
  pose proof (IsSimulcast_first_layer_iff config lowest rest Hcons) as Hiff.
  destruct ((1 <? length (lowest :: rest))%nat &&
            ((1 <? count_if active (lowest :: rest)) || active lowest)).
  - split; [reflexivity|]. intros Hnot. exfalso. apply Hnot, Hiff. reflexivity.
  - split; [|reflexivity]. intros Hyes. apply Hiff in Hyes. discriminate.
Qed.

(** Where the lowest resolution comes first, the lowest-resolution layer
    is active exactly when the layer at position 0 is. *)
Lemma simulcast_as_claimed_first_layer (config : VideoEncoderConfig) :
  lowest_resolution_first (simulcast_layers config) ->
  simulcast_as_claimed config <-> simulcast_first_layer config.
Proof.
  unfold simulcast_as_claimed, simulcast_first_layer, lowest_resolution_layer.
  destruct (simulcast_layers config) as [|first rest].
  - intros _. split; intros [Hsize _]; cbn in Hsize; lia.
  - cbn [lowest_resolution_first nth_error]. intros Hsorted.
    rewrite Forall_forall in Hsorted.
    split.
    + intros [Hsize [Hmany | Hlow]]; (split; [exact Hsize|]);
        [left; exact Hmany|]. right.
      destruct Hlow as (layer & [Hin Hmin] & Hact).
      exists first. split; [reflexivity|].
      destruct Hin as [<- | Hin]; [exact Hact|].
      pose proof (Hsorted layer Hin).
      pose proof (Hmin first (or_introl eq_refl)). lia.
    + intros [Hsize [Hmany | Hlow]]; (split; [exact Hsize|]);
        [left; exact Hmany|]. right.
      destruct Hlow as (layer & Heq & Hact). injection Heq as <-.
      exists first. split; [|exact Hact].
      split; [left; reflexivity|].
      intros other [<- | Hin]; [lia|].
      pose proof (Hsorted other Hin). lia.
Qed.

(* ================================================================= *)
(** ** The decision query *)

Section Decision.
Context `{Collaborators}.

Implicit Types (this : BitrateConstraint) (input_state : VideoStreamInputState).
Implicit Types (before after : VideoSourceRestrictions).
Implicit Types (settings : EncoderSettings).

(** The query leaves the object as it found it, whatever it returns. *)
Lemma IsAdaptationUpAllowed_object this input_state before after :
  object_after (IsAdaptationUpAllowed input_state before after) this = this.
Proof.
  run_method.
  destruct (DidIncreaseResolution before after); [|reflexivity].
  destruct (encoder_settings_ this) as [settings|]; [|reflexivity].
  destruct (value_or (encoder_target_bitrate_bps_ this) 0 =? 0); [reflexivity|].
  destruct (IsSimulcast (encoder_config settings)) as [[|]|]; try reflexivity.
  destruct (GetSingleActiveLayerPixels (video_codec settings)); [|reflexivity].
  destruct (GetEncoderBitrateLimitsForResolution _ _); [|reflexivity].
  destruct (RTC_DCHECK_IS_ON && _); reflexivity.
Qed.

(** What the query does once it has an entry of the table in hand. *)
Lemma IsAdaptationUpAllowed_at_comparison
    this input_state before after settings P limits :
  singlecast_limit_applies this before after settings P limits ->
  result (IsAdaptationUpAllowed input_state before after) this =
  if RTC_DCHECK_IS_ON && negb (P <=? frame_size_pixels limits)
  then Faults CheckFailure
  else Returns (static_cast_uint32 (min_start_bitrate_bps limits)
                  <=? value_or (encoder_target_bitrate_bps_ this) 0).
Proof.
  intros (Hup & Hset & Hrate & Hsingle & Hpx & Hentry).
  run_method. rewrite Hup, Hset.
  apply Z.eqb_neq in Hrate. rewrite Hrate, Hsingle, Hpx, Hentry.
  destruct (RTC_DCHECK_IS_ON && _); reflexivity.
Qed.

Lemma RTC_DCHECK_GE_passes (P size : Z) :
  P <= size -> RTC_DCHECK_IS_ON && negb (P <=? size) = false.
Proof.
  intros Hle. apply Z.leb_le in Hle. rewrite Hle.
  apply andb_false_r.
Qed.

(** Every answer [false] comes from the comparison. *)
Lemma IsAdaptationUpAllowed_false_inv this input_state before after :
  result (IsAdaptationUpAllowed input_state before after) this = Returns false ->
  exists settings P limits,
    singlecast_limit_applies this before after settings P limits /\
    value_or (encoder_target_bitrate_bps_ this) 0
      < static_cast_uint32 (min_start_bitrate_bps limits).
Proof.
  unfold singlecast_limit_applies. run_method.
  destruct (DidIncreaseResolution before after) eqn:Hup; [|discriminate].
  destruct (encoder_settings_ this) as [settings|] eqn:Hset; [|discriminate].
  destruct (value_or (encoder_target_bitrate_bps_ this) 0 =? 0) eqn:Hrate;
    [discriminate|].
  destruct (IsSimulcast (encoder_config settings)) as [[|]|] eqn:Hsingle;
    try discriminate.
  destruct (GetSingleActiveLayerPixels (video_codec settings)) as [P|] eqn:Hpx;
    [|discriminate].
  destruct (GetEncoderBitrateLimitsForResolution _ _) as [limits|] eqn:Hentry;
    [|discriminate].
  destruct (RTC_DCHECK_IS_ON && _); [discriminate|].
  intros Hfalse. injection Hfalse as Hcmp. apply Z.leb_gt in Hcmp.
  apply Z.eqb_neq in Hrate.
  exists settings, P, limits. repeat split; assumption.
Qed.

(** C1, as amended: on a resolution increase in singlecast, with settings
    stored, an effective target bitrate [B] that is not 0, a pixel count
    [P] and an entry for the tier above [P] whose minimum start bitrate
    is [M], the query returns true exactly when [B] is at least [M]
    converted to [uint32_t], that is [M mod 2^32]; for an [M] that is
    not negative this is [B >= M].  And an answer [false] never has
    another origin than this comparison. *)
Theorem IsAdaptationUpAllowed_singlecast_limit
    this input_state before after :
  let allowed := result (IsAdaptationUpAllowed input_state before after) this in
  let B := value_or (encoder_target_bitrate_bps_ this) 0 in
  (forall settings P limits,
      singlecast_limit_applies this before after settings P limits ->
      P <= frame_size_pixels limits ->
      let M := min_start_bitrate_bps limits in
      (allowed = Returns true <-> static_cast_uint32 M <= B) /\
      (allowed = Returns false <-> B < static_cast_uint32 M) /\
      (0 <= M -> int_range M -> (allowed = Returns true <-> M <= B))) /\
  (allowed = Returns false ->
   exists settings P limits,
     singlecast_limit_applies this before after settings P limits /\
     B < static_cast_uint32 (min_start_bitrate_bps limits)).
Proof.
  intros allowed B. split.
  - intros settings P limits Happlies Htier M.
    assert (Hrun : allowed = Returns (static_cast_uint32 M <=? B)).
    { unfold allowed.
      rewrite (IsAdaptationUpAllowed_at_comparison _ _ _ _ _ _ _ Happlies).
      rewrite (RTC_DCHECK_GE_passes _ _ Htier). reflexivity. }
    assert (Htrue : allowed = Returns true <-> static_cast_uint32 M <= B).
    { rewrite Hrun. split.
      - intros Heq. injection Heq as Heq. apply Z.leb_le. exact Heq.
      - intros Hle. apply Z.leb_le in Hle. rewrite Hle. reflexivity. }
    split; [exact Htrue|]. split.
    + rewrite Hrun. split.
      * intros Heq. injection Heq as Heq. apply Z.leb_gt. exact Heq.
      * intros Hlt. apply Z.leb_gt in Hlt. rewrite Hlt. reflexivity.
    + intros Hpos Hint.
      rewrite static_cast_uint32_same in Htrue; [exact Htrue|].
      unfold int_range in Hint. unfold uint32_range, uint32_modulus. lia.
  - apply IsAdaptationUpAllowed_false_inv.
Qed.

(** C2: a restriction pair that does not increase resolution is allowed,
    whatever the stored settings, the stored target bitrate and the
    input state. *)
Theorem IsAdaptationUpAllowed_no_increase this input_state before after :
  DidIncreaseResolution before after = false ->
  result (IsAdaptationUpAllowed input_state before after) this = Returns true.
Proof.
  intros Hsame. run_method. rewrite Hsame. reflexivity.
Qed.

(** C3, as amended: on a resolution increase with settings stored and an
    effective target bitrate that is not 0, a configuration with more
    than one layer, and with more than one layer active or the layer at
    position 0 active, is classified as simulcast and the query returns
    true whatever the target bitrate; a configuration with a layer that
    is outside that predicate is classified as not simulcast.  The layer
    at position 0 stands for the lowest-resolution layer: where the
    layers are listed with the lowest resolution first, the predicate is
    the one with the lowest-resolution layer. *)
Theorem IsAdaptationUpAllowed_simulcast
    this input_state before after settings :
  DidIncreaseResolution before after = true ->
  encoder_settings_ this = Some settings ->
  value_or (encoder_target_bitrate_bps_ this) 0 <> 0 ->
  let config := encoder_config settings in
  (simulcast_first_layer config ->
   IsSimulcast config = Returns true /\
   result (IsAdaptationUpAllowed input_state before after) this = Returns true) /\
  (~ simulcast_first_layer config ->
   simulcast_layers config <> [] ->
   IsSimulcast config = Returns false) /\
  (lowest_resolution_first (simulcast_layers config) ->
   (simulcast_as_claimed config <-> simulcast_first_layer config)).
Proof.
  intros Hup Hset Hrate config. split; [|split].
  - intros Hspec.
    assert (Hlayers : simulcast_layers config <> []).
    { destruct Hspec as [Hmore _].
      destruct (simulcast_layers config); [cbn in Hmore; lia | discriminate]. }
    destruct (IsSimulcast_first_layer _ Hlayers) as [Hyes _].
    split; [exact (Hyes Hspec)|].
    run_method. rewrite Hup, Hset.
    apply Z.eqb_neq in Hrate. fold config. rewrite Hrate, (Hyes Hspec).
    reflexivity.
  - intros Hnot Hlayers.
    destruct (IsSimulcast_first_layer _ Hlayers) as [_ Hno]. exact (Hno Hnot).
  - apply simulcast_as_claimed_first_layer.
Qed.

(** Where the configuration lists no layer, a resolution increase with
    settings stored and a target bitrate that is not 0 makes the query
    read past the end of the vector. *)
Lemma IsAdaptationUpAllowed_no_layers this input_state before after settings :
  DidIncreaseResolution before after = true ->
  encoder_settings_ this = Some settings ->
  value_or (encoder_target_bitrate_bps_ this) 0 <> 0 ->
  simulcast_layers (encoder_config settings) = [] ->
  result (IsAdaptationUpAllowed input_state before after) this
  = Faults OutOfBounds.
Proof.
  intros Hup Hset Hrate Hnil. run_method. rewrite Hup, Hset.
  apply Z.eqb_neq in Hrate.
  rewrite Hrate, (IsSimulcast_no_layers _ Hnil). reflexivity.
Qed.

(** Where the configuration has a layer and checks are compiled out, the
    query returns. *)
Lemma IsAdaptationUpAllowed_returns this input_state before after :
  RTC_DCHECK_IS_ON = false ->
  (forall settings, encoder_settings_ this = Some settings ->
                    simulcast_layers (encoder_config settings) <> []) ->
  exists allowed,
    result (IsAdaptationUpAllowed input_state before after) this
    = Returns allowed.
Proof.
  intros Hoff Hlayers. run_method.
  destruct (DidIncreaseResolution before after); [|eexists; reflexivity].
  destruct (encoder_settings_ this) as [settings|]; [|eexists; reflexivity].
  destruct (value_or (encoder_target_bitrate_bps_ this) 0 =? 0);
    [eexists; reflexivity|].
  specialize (Hlayers settings eq_refl).
  destruct (simulcast_layers (encoder_config settings)) as [|l r] eqn:Hl;
    [congruence|].
  rewrite (IsSimulcast_some_layers _ _ _ Hl).
  destruct (_ && _); [eexists; reflexivity|].
  destruct (GetSingleActiveLayerPixels (video_codec settings));
    [|eexists; reflexivity].
  destruct (GetEncoderBitrateLimitsForResolution _ _); [|eexists; reflexivity].
  rewrite Hoff. eexists; reflexivity.
Qed.

(** C5: with no encoder settings stored, a resolution increase is
    allowed, whatever the input state and the stored target bitrate:
    on any object that holds no settings, on one that never received
    any, and on one whose settings were cleared. *)
Theorem IsAdaptationUpAllowed_no_settings this input_state before after :
  DidIncreaseResolution before after = true ->
  (encoder_settings_ this = None ->
   result (IsAdaptationUpAllowed input_state before after) this = Returns true) /\
  (forall target,
     result (OnEncoderTargetBitrateUpdated target ;;
             IsAdaptationUpAllowed input_state before after)
            BitrateConstraint_new = Returns true) /\
  result (OnEncoderSettingsUpdated None ;;
          IsAdaptationUpAllowed input_state before after) this = Returns true.
Proof.
  intros Hup. split; [|split].
  - intros Hnone. run_method. rewrite Hup, Hnone. reflexivity.
  - intros target. run_method. cbn. rewrite Hup. reflexivity.
  - run_method. cbn. rewrite Hup. reflexivity.
Qed.

(** C6: a stored target bitrate that is absent and one that is 0 give the
    same answer, for every stored settings, input state and restriction
    pair; and on a resolution increase with settings stored that answer
    is true. *)
Theorem IsAdaptationUpAllowed_unknown_bitrate
    (stored : option EncoderSettings) input_state before after :
  let absent :=
    {| encoder_settings_ := stored; encoder_target_bitrate_bps_ := None |} in
  let zero :=
    {| encoder_settings_ := stored; encoder_target_bitrate_bps_ := Some 0 |} in
  result (IsAdaptationUpAllowed input_state before after) absent
  = result (IsAdaptationUpAllowed input_state before after) zero /\
  (DidIncreaseResolution before after = true -> stored <> None ->
   result (IsAdaptationUpAllowed input_state before after) absent = Returns true /\
   result (IsAdaptationUpAllowed input_state before after) zero = Returns true).
Proof.
  intros absent zero. subst absent zero. run_method. cbn.
  destruct (DidIncreaseResolution before after);
    destruct stored as [settings|]; cbn; repeat split; reflexivity.
Qed.

(** C7: on a resolution increase in singlecast, with settings stored, an
    effective target bitrate that is not 0 and a pixel count [P], an
    encoder whose table has no entry for the resolution above [P] lets
    the query return true, whatever the target bitrate. *)
Theorem IsAdaptationUpAllowed_no_limit
    this input_state before after settings P :
  DidIncreaseResolution before after = true ->
  encoder_settings_ this = Some settings ->
  value_or (encoder_target_bitrate_bps_ this) 0 <> 0 ->
  IsSimulcast (encoder_config settings) = Returns false ->
  GetSingleActiveLayerPixels (video_codec settings) = Some P ->
  GetEncoderBitrateLimitsForResolution
    (encoder_info settings) (GetHigherResolutionThan P) = None ->
  result (IsAdaptationUpAllowed input_state before after) this = Returns true.
Proof.
  intros Hup Hset Hrate Hsingle Hpx Hentry. run_method.
  rewrite Hup, Hset. apply Z.eqb_neq in Hrate.
  rewrite Hrate, Hsingle, Hpx, Hentry. reflexivity.
Qed.

End Decision.

(* ================================================================= *)
(** ** Updates and the frame of the query *)

Section State.
Context `{Collaborators}.

Implicit Types (this : BitrateConstraint) (input_state : VideoStreamInputState).
Implicit Types (before after : VideoSourceRestrictions).

(** A call of the query, seen as a pair. *)
Lemma IsAdaptationUpAllowed_run this input_state before after :
  IsAdaptationUpAllowed input_state before after this
  = (result (IsAdaptationUpAllowed input_state before after) this, this).
Proof.
  pose proof (IsAdaptationUpAllowed_object this input_state before after) as Hobj.
  unfold result, object_after in *.
  destruct (IsAdaptationUpAllowed input_state before after this) as [answer object].
  cbn [fst snd] in *. rewrite Hobj. reflexivity.
Qed.

(** A call of the query followed by more. *)
Lemma IsAdaptationUpAllowed_then {A : Type}
    this input_state before after (k : bool -> Method A) :
  (answer <- IsAdaptationUpAllowed input_state before after ;; k answer) this
  = match result (IsAdaptationUpAllowed input_state before after) this with
    | Returns answer => k answer this
    | Faults f => (Faults f, this)
    end.
Proof.
  unfold bind. rewrite IsAdaptationUpAllowed_run.
  destruct (result (IsAdaptationUpAllowed input_state before after) this);
    reflexivity.
Qed.

(** C8: each update replaces the stored value: after settings [A] then
    settings [B] the object is the one that settings [B] alone leaves,
    it holds [B], and a query made next answers as after [B] alone; the
    same for two target bitrates. *)
Theorem updates_overwrite
    (A B : option EncoderSettings) (a b : option Z)
    this input_state before after :
  (object_after (OnEncoderSettingsUpdated A ;; OnEncoderSettingsUpdated B) this
   = object_after (OnEncoderSettingsUpdated B) this /\
   encoder_settings_
     (object_after (OnEncoderSettingsUpdated A ;; OnEncoderSettingsUpdated B) this)
   = B /\
   result (OnEncoderSettingsUpdated A ;; OnEncoderSettingsUpdated B ;;
           IsAdaptationUpAllowed input_state before after) this
   = result (OnEncoderSettingsUpdated B ;;
             IsAdaptationUpAllowed input_state before after) this) /\
  (object_after (OnEncoderTargetBitrateUpdated a ;;
                 OnEncoderTargetBitrateUpdated b) this
   = object_after (OnEncoderTargetBitrateUpdated b) this /\
   encoder_target_bitrate_bps_
     (object_after (OnEncoderTargetBitrateUpdated a ;;
                    OnEncoderTargetBitrateUpdated b) this)
   = b /\
   result (OnEncoderTargetBitrateUpdated a ;; OnEncoderTargetBitrateUpdated b ;;
           IsAdaptationUpAllowed input_state before after) this
   = result (OnEncoderTargetBitrateUpdated b ;;
             IsAdaptationUpAllowed input_state before after) this).
Proof.
  unfold result, object_after, bind,
    OnEncoderSettingsUpdated, OnEncoderTargetBitrateUpdated.
  cbn [fst snd encoder_settings_ encoder_target_bitrate_bps_].
  repeat split; reflexivity.
Qed.

(** C9: the query changes neither the stored settings nor the stored
    target bitrate; any number of calls in a row leaves the object as it
    was, and a query made after them answers as the first would. *)
Theorem IsAdaptationUpAllowed_const this input_state before after (n : nat) :
  object_after (IsAdaptationUpAllowed input_state before after) this = this /\
  encoder_settings_
    (object_after (IsAdaptationUpAllowed input_state before after) this)
  = encoder_settings_ this /\
  encoder_target_bitrate_bps_
    (object_after (IsAdaptationUpAllowed input_state before after) this)
  = encoder_target_bitrate_bps_ this /\
  object_after (IsAdaptationUpAllowed_times n input_state before after) this
  = this /\
  result (IsAdaptationUpAllowed_times n input_state before after ;;
          IsAdaptationUpAllowed input_state before after) this
  = result (IsAdaptationUpAllowed input_state before after) this.
Proof.
  pose proof (IsAdaptationUpAllowed_object this input_state before after) as Hobj.
  split; [exact Hobj|]. rewrite Hobj.
  split; [reflexivity|]. split; [reflexivity|].
  assert (Htimes : forall k,
    IsAdaptationUpAllowed_times k input_state before after this = (Returns tt, this)
    \/ exists f,
         IsAdaptationUpAllowed_times k input_state before after this
         = (Faults f, this) /\
         result (IsAdaptationUpAllowed input_state before after) this = Faults f).
  { induction k as [|k IH]; [left; reflexivity|].
    cbn [IsAdaptationUpAllowed_times]. rewrite IsAdaptationUpAllowed_then.
    destruct (result (IsAdaptationUpAllowed input_state before after) this)
      as [answer|f].
    - destruct IH as [IH | (f & IH & Hf)]; [left; exact IH | discriminate].
    - right. exists f. split; reflexivity. }
  destruct (Htimes n) as [Hn | (f & Hn & Hf)].
  - unfold object_after, result at 1, bind. rewrite Hn. cbn [fst snd].
    split; reflexivity.
  - unfold object_after, result at 1, bind. rewrite Hn, Hf. cbn [fst snd].
    split; reflexivity.
Qed.

(** C10: a [min_start_bitrate_bps] that is negative is compared as that
    value plus [2^32 = 4294967296], a threshold between [2^31] and
    [2^32 - 1]: the query returns whether the target bitrate reaches it,
    and so returns false for a target bitrate below it, which the signed
    value would have let pass; -1 behaves as 4294967295. *)
Theorem IsAdaptationUpAllowed_negative_min_start
    this input_state before after (settings : EncoderSettings) P limits :
  singlecast_limit_applies this before after settings P limits ->
  P <= frame_size_pixels limits ->
  int_range (min_start_bitrate_bps limits) ->
  min_start_bitrate_bps limits < 0 ->
  let B := value_or (encoder_target_bitrate_bps_ this) 0 in
  let M := min_start_bitrate_bps limits in
  static_cast_uint32 M = M + 4294967296 /\
  2147483648 <= static_cast_uint32 M <= 4294967295 /\
  (M = -1 -> static_cast_uint32 M = 4294967295) /\
  result (IsAdaptationUpAllowed input_state before after) this
  = Returns (M + 4294967296 <=? B) /\
  (B < M + 4294967296 ->
   result (IsAdaptationUpAllowed input_state before after) this = Returns false).
Proof.
  intros Happlies Htier Hint Hneg B M.
  pose proof (static_cast_uint32_negative M Hint Hneg) as Hcast.
  unfold uint32_modulus in Hcast.
  change (2 ^ 32) with 4294967296 in Hcast.
  assert (Hrun : result (IsAdaptationUpAllowed input_state before after) this
                 = Returns (M + 4294967296 <=? B)).
  { rewrite (IsAdaptationUpAllowed_at_comparison _ _ _ _ _ _ _ Happlies).
    rewrite (RTC_DCHECK_GE_passes _ _ Htier).
    fold M B. rewrite Hcast. reflexivity. }
  unfold int_range in Hint. fold M in Hint, Hneg.
  change (2 ^ 31) with 2147483648 in Hint.
  split; [exact Hcast|]. split; [lia|]. split; [lia|]. split; [exact Hrun|].
  intros Hlow. rewrite Hrun. apply Z.leb_gt in Hlow. rewrite Hlow. reflexivity.
Qed.

End State.

(* ================================================================= *)
(** ** The properties on concrete configurations *)

Import Reference.

(** Discharges [singlecast_limit_applies] on closed terms. *)
Ltac limit_applies :=
  unfold singlecast_limit_applies;
  repeat split; try reflexivity; cbn; discriminate.

(** The example of the specification: from 640x360 to the tier 1280x720
    that asks for 1,500,000 bps. *)
Example query_360p_at_1200000 :
  result (IsAdaptationUpAllowed tt (cap (640 * 360)) (cap (1280 * 720)))
         (constraint (Some (settings_360p 1500000)) (Some 1200000))
  = Returns false.
Proof. reflexivity. Qed.

Example query_360p_at_1600000 :
  result (IsAdaptationUpAllowed tt (cap (640 * 360)) (cap (1280 * 720)))
         (constraint (Some (settings_360p 1500000)) (Some 1600000))
  = Returns true.
Proof. reflexivity. Qed.

Example static_cast_uint32_minus_one : static_cast_uint32 (-1) = 4294967295.
Proof. reflexivity. Qed.

(** C1, as first stated, fails: with a minimum start bitrate of -1 the
    target bitrate 1,200,000 is at least the minimum, and the query
    returns false. *)
Lemma IsAdaptationUpAllowed_singlecast_limit_counterexample :
  let this := constraint (Some (settings_360p (-1))) (Some 1200000) in
  let limits := limit (1280 * 720) (-1) in
  let allowed :=
    result (IsAdaptationUpAllowed tt (cap (640 * 360)) (cap (1280 * 720))) this in
  singlecast_limit_applies this (cap (640 * 360)) (cap (1280 * 720))
    (settings_360p (-1)) (640 * 360) limits /\
  640 * 360 < frame_size_pixels limits /\
  allowed = Returns false /\
  ~ (allowed = Returns true <->
     min_start_bitrate_bps limits
       <= value_or (encoder_target_bitrate_bps_ this) 0).
Proof.
  cbv zeta. split; [limit_applies|]. split; [reflexivity|].
  split; [reflexivity|].
  intros [_ Hback].
  assert (Hle : -1 <= 1200000) by lia.
  specialize (Hback Hle). discriminate Hback.
Qed.

Lemma IsAdaptationUpAllowed_singlecast_limit_witness :
  let this := constraint (Some (settings_360p 1500000)) (Some 1200000) in
  let allowed :=
    result (IsAdaptationUpAllowed tt (cap (640 * 360)) (cap (1280 * 720))) this in
  singlecast_limit_applies this (cap (640 * 360)) (cap (1280 * 720))
    (settings_360p 1500000) (640 * 360) (limit (1280 * 720) 1500000) /\
  (allowed = Returns true <-> static_cast_uint32 1500000 <= 1200000) /\
  (allowed = Returns false <-> 1200000 < static_cast_uint32 1500000) /\
  (0 <= 1500000 -> int_range 1500000 ->
   (allowed = Returns true <-> 1500000 <= 1200000)).
Proof.
  cbv zeta.
  assert (Happlies :
    singlecast_limit_applies
      (constraint (Some (settings_360p 1500000)) (Some 1200000))
      (cap (640 * 360)) (cap (1280 * 720))
      (settings_360p 1500000) (640 * 360) (limit (1280 * 720) 1500000))
    by limit_applies.
  split; [exact Happlies|].
  apply (proj1 (IsAdaptationUpAllowed_singlecast_limit
                  (constraint (Some (settings_360p 1500000)) (Some 1200000))
                  tt (cap (640 * 360)) (cap (1280 * 720)))
               (settings_360p 1500000) (640 * 360)
               (limit (1280 * 720) 1500000) Happlies).
  cbn. discriminate.
Defined.

Lemma IsAdaptationUpAllowed_no_increase_witness :
  DidIncreaseResolution (cap (1280 * 720)) (cap (640 * 360)) = false /\
  result (IsAdaptationUpAllowed tt (cap (1280 * 720)) (cap (640 * 360)))
         (constraint (Some (settings_360p 1500000)) (Some 1))
  = Returns true.
Proof.
  split; [reflexivity|].
  apply IsAdaptationUpAllowed_no_increase. reflexivity.
Defined.

(** C3, as first stated, fails: of the two layers 1280x720, inactive, and
    320x180, active, the lowest-resolution layer is active, so the
    configuration meets the predicate; it is classified as not simulcast
    and the query, at 1,200,000 bps under a minimum of 1,500,000 bps,
    returns false. *)
Lemma IsAdaptationUpAllowed_simulcast_counterexample :
  let layers := [layer 1280 720 false; layer 320 180 true] in
  let config := {| simulcast_layers := layers |} in
  let settings :=
    {| encoder_info := [limit (640 * 360) 1500000];
       encoder_config := config;
       video_codec := layers |} in
  let this := constraint (Some settings) (Some 1200000) in
  DidIncreaseResolution (cap (320 * 180)) (cap (640 * 360)) = true /\
  encoder_settings_ this = Some settings /\
  value_or (encoder_target_bitrate_bps_ this) 0 <> 0 /\
  simulcast_as_claimed config /\
  IsSimulcast config = Returns false /\
  result (IsAdaptationUpAllowed tt (cap (320 * 180)) (cap (640 * 360))) this
  = Returns false.
Proof.
  cbv zeta. split; [reflexivity|]. split; [reflexivity|].
  split; [cbn; discriminate|]. split; [|split; reflexivity].
  split; [cbn; lia|]. right. exists (layer 320 180 true).
  split; [|reflexivity]. split; [cbn; auto|].
  intros other Hin. cbn in Hin.
  destruct Hin as [<- | [<- | []]]; unfold pixels; cbn; lia.
Qed.

Lemma IsAdaptationUpAllowed_simulcast_witness :
  let layers := [layer 320 180 true; layer 640 360 false] in
  let config := {| simulcast_layers := layers |} in
  let settings :=
    {| encoder_info := [limit (640 * 360) 1500000];
       encoder_config := config;
       video_codec := layers |} in
  let this := constraint (Some settings) (Some 1200000) in
  simulcast_first_layer config /\
  GetSingleActiveLayerPixels (video_codec settings) = Some (320 * 180) /\
  GetEncoderBitrateLimitsForResolution (encoder_info settings)
    (GetHigherResolutionThan (320 * 180)) = Some (limit (640 * 360) 1500000) /\
  IsSimulcast config = Returns true /\
  result (IsAdaptationUpAllowed tt (cap (320 * 180)) (cap (640 * 360))) this
  = Returns true.
Proof.
  cbv zeta.
  assert (Hspec : simulcast_first_layer
                    {| simulcast_layers :=
                         [layer 320 180 true; layer 640 360 false] |}).
  { split; [cbn; repeat constructor|]. right.
    exists (layer 320 180 true). split; reflexivity. }
  split; [exact Hspec|]. split; [reflexivity|]. split; [reflexivity|].
  apply (proj1 (IsAdaptationUpAllowed_simulcast
                  (constraint
                     (Some (@Build_EncoderSettings collaborators
                              [limit (640 * 360) 1500000]
                              {| simulcast_layers :=
                                   [layer 320 180 true; layer 640 360 false] |}
                              [layer 320 180 true; layer 640 360 false]))
                     (Some 1200000))
                  tt (cap (320 * 180)) (cap (640 * 360)) _
                  eq_refl eq_refl ltac:(cbn; discriminate))).
  exact Hspec.
Defined.

(** C4 fails on the code: with settings whose configuration lists no
    layer, a target bitrate of 1,200,000 and a resolution increase, the
    query does not return true; it reads [simulcast_layers[0]] of an
    empty vector. *)
Theorem IsAdaptationUpAllowed_no_layers_faults :
  simulcast_layers (encoder_config settings_no_layers) = [] /\
  result (IsAdaptationUpAllowed tt (cap (640 * 360)) (cap (1280 * 720)))
         (constraint (Some settings_no_layers) (Some 1200000))
  = Faults OutOfBounds.
Proof.
  split; [reflexivity|].
  apply (IsAdaptationUpAllowed_no_layers _ _ _ _ settings_no_layers);
    try reflexivity.
  cbn. discriminate.
Qed.

Lemma IsAdaptationUpAllowed_no_settings_witness :
  DidIncreaseResolution (cap (640 * 360)) (cap (1280 * 720)) = true /\
  result (IsAdaptationUpAllowed tt (cap (640 * 360)) (cap (1280 * 720)))
         (constraint None (Some 1200000))
  = Returns true.
Proof.
  split; [reflexivity|].
  apply (proj1 (IsAdaptationUpAllowed_no_settings
                  (constraint None (Some 1200000))
                  tt (cap (640 * 360)) (cap (1280 * 720)) eq_refl)).
  reflexivity.
Defined.

Lemma IsAdaptationUpAllowed_unknown_bitrate_witness :
  result (IsAdaptationUpAllowed tt (cap (640 * 360)) (cap (1280 * 720)))
         (constraint (Some (settings_360p 1500000)) None)
  = Returns true /\
  result (IsAdaptationUpAllowed tt (cap (640 * 360)) (cap (1280 * 720)))
         (constraint (Some (settings_360p 1500000)) (Some 0))
  = Returns true.
Proof.
  apply (proj2 (IsAdaptationUpAllowed_unknown_bitrate
                  (Some (settings_360p 1500000)) tt
                  (cap (640 * 360)) (cap (1280 * 720)))).
  - reflexivity.
  - discriminate.
Defined.

Lemma IsAdaptationUpAllowed_no_limit_witness :
  GetEncoderBitrateLimitsForResolution (encoder_info settings_720p_top)
    (GetHigherResolutionThan (1280 * 720)) = None /\
  result (IsAdaptationUpAllowed tt (cap (1280 * 720)) uncapped)
         (constraint (Some settings_720p_top) (Some 1))
  = Returns true.
Proof.
  split; [reflexivity|].
  apply (IsAdaptationUpAllowed_no_limit
           (constraint (Some settings_720p_top) (Some 1))
           tt (cap (1280 * 720)) uncapped settings_720p_top (1280 * 720));
    try reflexivity.
  cbn. discriminate.
Defined.

Lemma IsAdaptationUpAllowed_negative_min_start_witness :
  static_cast_uint32 (-1) = 4294967295 /\
  result (IsAdaptationUpAllowed tt (cap (640 * 360)) (cap (1280 * 720)))
         (constraint (Some (settings_360p (-1))) (Some 1200000))
  = Returns false.
Proof.
  assert (Happlies :
    singlecast_limit_applies
      (constraint (Some (settings_360p (-1))) (Some 1200000))
      (cap (640 * 360)) (cap (1280 * 720))
      (settings_360p (-1)) (640 * 360) (limit (1280 * 720) (-1)))
    by limit_applies.
  assert (Htier : 640 * 360 <= frame_size_pixels (limit (1280 * 720) (-1)))
    by (cbn; discriminate).
  assert (Hint : int_range (min_start_bitrate_bps (limit (1280 * 720) (-1))))
    by (unfold int_range; cbn; split; [discriminate | reflexivity]).
  assert (Hneg : min_start_bitrate_bps (limit (1280 * 720) (-1)) < 0)
    by reflexivity.
  destruct (IsAdaptationUpAllowed_negative_min_start
              (constraint (Some (settings_360p (-1))) (Some 1200000))
              tt (cap (640 * 360)) (cap (1280 * 720))
              (settings_360p (-1)) (640 * 360) (limit (1280 * 720) (-1))
              Happlies Htier Hint Hneg)
    as (_ & _ & Hminus_one & _ & Hblocks).
  split; [apply Hminus_one; reflexivity | apply Hblocks; reflexivity].
Defined.

(* ================================================================= *)
(** ** More on IsSimulcast *)

(** The count of active layers is read off the flags alone. *)
Lemma count_if_active_flags (l : list VideoStream) :
  count_if active l = count_if (fun flag : bool => flag) (map active l).
Proof.
  induction l as [|x l IH]; [reflexivity|].
  cbn [map]. rewrite !count_if_cons, IH. reflexivity.
Qed.

(** The two ways a call of [IsSimulcast] ends. *)
Lemma IsSimulcast_outcome (config : VideoEncoderConfig) :
  (simulcast_layers config = [] /\ IsSimulcast config = Faults OutOfBounds) \/
  (exists lowest rest,
      simulcast_layers config = lowest :: rest /\
      IsSimulcast config =
      Returns ((1 <? length (lowest :: rest))%nat &&
               ((1 <? count_if active (lowest :: rest)) || active lowest))).
Proof.
  destruct (simulcast_layers config) as [|lowest rest] eqn:Hl.
  - left. split; [reflexivity | apply IsSimulcast_no_layers; exact Hl].
  - right. exists lowest, rest.
    split; [reflexivity | apply IsSimulcast_some_layers; exact Hl].
Qed.

(** X2: on a configuration that has a layer, [IsSimulcast] returns false
    on exactly two kinds of configuration: one layer only, active or
    not; or several layers with the one at position 0 inactive and no
    two of the others active. *)
Theorem IsSimulcast_false_iff (config : VideoEncoderConfig) :
  simulcast_layers config <> [] ->
  IsSimulcast config = Returns false <->
  exists lowest rest,
    simulcast_layers config = lowest :: rest /\
    (rest = [] \/ (active lowest = false /\ ~ more_than_one_active rest)).
Proof.
  intros Hlayers.
  destruct (IsSimulcast_outcome config)
    as [[Hnil Hrun] | (lowest & rest & Hcons & Hrun)]; [contradiction|].
  rewrite Hrun, count_if_cons. split.
  - intros Heq. injection Heq as Heq. exists lowest, rest.
    split; [exact Hcons|].
    destruct rest as [|second rest]; [left; reflexivity|]. right.
    cbn [length Nat.ltb Nat.leb andb] in Heq.
    apply orb_false_iff in Heq. destruct Heq as [Hcount Hlow].
    rewrite Hlow in Hcount. apply Z.ltb_ge in Hcount.
    split; [exact Hlow|].
    rewrite more_than_one_active_count. lia.
  - intros (l & r & Heq & Hcase). rewrite Hcons in Heq.
    injection Heq as <- <-.
    destruct Hcase as [-> | [Hlow Hcount]]; [reflexivity|].
    rewrite more_than_one_active_count in Hcount.
    rewrite Hlow. cbn [orb].
    assert (Hno : (1 <? 0 + count_if active rest) = false)
      by (apply Z.ltb_ge; lia).
    rewrite Hno, orb_false_r, andb_false_r. reflexivity.
Qed.

(** X3: a configuration classified as simulcast has at least two layers
    and at least one active layer. *)
Theorem IsSimulcast_true_inv (config : VideoEncoderConfig) :
  IsSimulcast config = Returns true ->
  (2 <= length (simulcast_layers config))%nat /\
  1 <= count_if active (simulcast_layers config).
Proof.
  destruct (IsSimulcast_outcome config)
    as [[Hnil Hrun] | (lowest & rest & Hcons & Hrun)]; rewrite Hrun;
    [discriminate|].
  intros Heq. injection Heq as Heq. rewrite Hcons.
  apply andb_true_iff in Heq. destruct Heq as [Hsize Hactive].
  apply Nat.ltb_lt in Hsize. cbn [length] in *. split; [lia|].
  apply orb_true_iff in Hactive. destruct Hactive as [Hmany | Hlow].
  - apply Z.ltb_lt in Hmany. lia.
  - rewrite count_if_cons, Hlow.
    pose proof (count_if_nonneg active rest). lia.
Qed.

(** X4: the classification reads nothing of a layer but its [active]
    flag: two configurations whose layers carry the same flags, in the
    same order, end [IsSimulcast] the same way. *)
Theorem IsSimulcast_active_flags_only (config1 config2 : VideoEncoderConfig) :
  map active (simulcast_layers config1) = map active (simulcast_layers config2) ->
  IsSimulcast config1 = IsSimulcast config2.
Proof.
  intros Hflags.
  assert (Hlen : length (simulcast_layers config1)
                 = length (simulcast_layers config2)).
  { rewrite <- (length_map active (simulcast_layers config1)), Hflags.
    apply length_map. }
  assert (Hcount : count_if active (simulcast_layers config1)
                   = count_if active (simulcast_layers config2)).
  { rewrite !count_if_active_flags, Hflags. reflexivity. }
  destruct (IsSimulcast_outcome config1)
    as [[Hnil1 Hrun1] | (l1 & r1 & Hcons1 & Hrun1)];
  destruct (IsSimulcast_outcome config2)
    as [[Hnil2 Hrun2] | (l2 & r2 & Hcons2 & Hrun2)];
  rewrite Hrun1, Hrun2.
  - reflexivity.
  - rewrite Hnil1, Hcons2 in Hlen. discriminate.
  - rewrite Hcons1, Hnil2 in Hlen. discriminate.
  - rewrite Hcons1, Hcons2 in Hflags, Hlen, Hcount.
    cbn [map] in Hflags. injection Hflags as Hhead _.
    rewrite Hlen, Hcount, Hhead. reflexivity.
Qed.

(** Turning layers on never lowers the count of active layers. *)
Lemma count_if_active_mono (l1 l2 : list VideoStream) :
  Forall2 (fun x y => active x = true -> active y = true) l1 l2 ->
  count_if active l1 <= count_if active l2.
Proof.
  induction 1 as [|x y l1 l2 Hxy _ IH]; [reflexivity|].
  rewrite !count_if_cons.
  destruct (active x); [rewrite (Hxy eq_refl); lia|].
  destruct (active y); lia.
Qed.

(** X5: turning layers on keeps a simulcast configuration simulcast: if
    every layer active in the first configuration is active in the
    second, layer by layer, and the first is classified as simulcast,
    so is the second. *)
Theorem IsSimulcast_more_active (config1 config2 : VideoEncoderConfig) :
  Forall2 (fun x y => active x = true -> active y = true)
          (simulcast_layers config1) (simulcast_layers config2) ->
  IsSimulcast config1 = Returns true ->
  IsSimulcast config2 = Returns true.
Proof.
  intros Hmore.
  pose proof (Forall2_length Hmore) as Hlen.
  pose proof (count_if_active_mono _ _ Hmore) as Hcount.
  destruct (IsSimulcast_outcome config1)
    as [[Hnil1 Hrun1] | (l1 & r1 & Hcons1 & Hrun1)]; rewrite Hrun1;
    [discriminate|].
  destruct (IsSimulcast_outcome config2)
    as [[Hnil2 Hrun2] | (l2 & r2 & Hcons2 & Hrun2)]; rewrite Hrun2.
  - rewrite Hcons1, Hnil2 in Hlen. discriminate.
  - rewrite Hcons1, Hcons2 in Hmore, Hlen, Hcount.
    inversion Hmore as [|? ? ? ? Hhead _]; subst.
    intros Heq. injection Heq as Heq. f_equal.
    apply andb_true_iff in Heq. destruct Heq as [Hsize Hactive].
    apply andb_true_iff. split.
    + rewrite <- Hlen. exact Hsize.
    + apply orb_true_iff in Hactive. apply orb_true_iff.
      destruct Hactive as [Hmany | Hlow].
      * left. apply Z.ltb_lt in Hmany. apply Z.ltb_lt. lia.
      * right. exact (Hhead Hlow).
Qed.

(* ================================================================= *)
(** ** More on the decision query *)

Section Edges.
Context `{Collaborators}.

Implicit Types (this : BitrateConstraint) (input_state : VideoStreamInputState).
Implicit Types (before after : VideoSourceRestrictions).
Implicit Types (settings : EncoderSettings).

(** X7: the query returns an answer whenever the stored configuration
    lists a layer and, where checks are compiled in, the entries the
    table lookup gives for the stored settings are for at least the
    current frame size. *)
Theorem IsAdaptationUpAllowed_returns_when_sound
    this input_state before after :
  (forall settings,
      encoder_settings_ this = Some settings ->
      simulcast_layers (encoder_config settings) <> []) ->
  (RTC_DCHECK_IS_ON = true ->
   forall settings P limits,
     encoder_settings_ this = Some settings ->
     GetSingleActiveLayerPixels (video_codec settings) = Some P ->
     GetEncoderBitrateLimitsForResolution
       (encoder_info settings) (GetHigherResolutionThan P) = Some limits ->
     P <= frame_size_pixels limits) ->
  exists allowed,
    result (IsAdaptationUpAllowed input_state before after) this
    = Returns allowed.
Proof.
  intros Hlayers Hsound. run_method.
  destruct (DidIncreaseResolution before after); [|eexists; reflexivity].
  destruct (encoder_settings_ this) as [settings|]; [|eexists; reflexivity].
  destruct (value_or (encoder_target_bitrate_bps_ this) 0 =? 0);
    [eexists; reflexivity|].
  specialize (Hlayers settings eq_refl).
  destruct (IsSimulcast_outcome (encoder_config settings))
    as [[Hnil _] | (l & r & _ & Hrun)]; [contradiction|].
  rewrite Hrun.
  destruct (_ && _); [eexists; reflexivity|].
  destruct (GetSingleActiveLayerPixels (video_codec settings)) as [P|] eqn:Hpx;
    [|eexists; reflexivity].
  destruct (GetEncoderBitrateLimitsForResolution _ _) as [limits|] eqn:Hentry;
    [|eexists; reflexivity].
  destruct RTC_DCHECK_IS_ON; cbn [andb]; [|eexists; reflexivity].
  specialize (Hsound eq_refl settings P limits eq_refl Hpx Hentry).
  apply Z.leb_le in Hsound. rewrite Hsound. eexists; reflexivity.
Qed.

(** X8: the answer depends on the call only through
    [DidIncreaseResolution] of the pair, the stored settings and the
    effective target bitrate; the input state is never read. *)
Theorem IsAdaptationUpAllowed_depends_on
    this1 this2 input_state1 input_state2 before1 after1 before2 after2 :
  DidIncreaseResolution before1 after1 = DidIncreaseResolution before2 after2 ->
  encoder_settings_ this1 = encoder_settings_ this2 ->
  value_or (encoder_target_bitrate_bps_ this1) 0
  = value_or (encoder_target_bitrate_bps_ this2) 0 ->
  result (IsAdaptationUpAllowed input_state1 before1 after1) this1
  = result (IsAdaptationUpAllowed input_state2 before2 after2) this2.
Proof.
  intros Hpair Hset Hrate. run_method. rewrite Hpair.
  destruct (DidIncreaseResolution before2 after2); [|reflexivity].
  rewrite Hset.
  destruct (encoder_settings_ this2) as [settings|]; [|reflexivity].
  rewrite Hrate.
  destruct (value_or (encoder_target_bitrate_bps_ this2) 0 =? 0);
    [reflexivity|].
  destruct (IsSimulcast (encoder_config settings)) as [[|]|]; try reflexivity.
  destruct (GetSingleActiveLayerPixels (video_codec settings)); [|reflexivity].
  destruct (GetEncoderBitrateLimitsForResolution _ _); [|reflexivity].
  destruct (RTC_DCHECK_IS_ON && _); reflexivity.
Qed.

(** X9: above 0 the answer is monotone in the target bitrate: with the
    same stored settings, an adaptation allowed at a target bitrate that
    is positive is allowed at every higher one. *)
Theorem IsAdaptationUpAllowed_bitrate_monotone
    this1 this2 input_state before after :
  encoder_settings_ this1 = encoder_settings_ this2 ->
  0 < value_or (encoder_target_bitrate_bps_ this1) 0 ->
  value_or (encoder_target_bitrate_bps_ this1) 0
  <= value_or (encoder_target_bitrate_bps_ this2) 0 ->
  result (IsAdaptationUpAllowed input_state before after) this1 = Returns true ->
  result (IsAdaptationUpAllowed input_state before after) this2 = Returns true.
Proof.
  intros Hset Hpos Hle. run_method.
  destruct (DidIncreaseResolution before after); [|reflexivity].
  rewrite Hset.
  destruct (encoder_settings_ this2) as [settings|]; [|reflexivity].
  assert (Hrate1 : (value_or (encoder_target_bitrate_bps_ this1) 0 =? 0) = false)
    by (apply Z.eqb_neq; lia).
  assert (Hrate2 : (value_or (encoder_target_bitrate_bps_ this2) 0 =? 0) = false)
    by (apply Z.eqb_neq; lia).
  rewrite Hrate1, Hrate2.
  destruct (IsSimulcast (encoder_config settings)) as [[|]|];
    [reflexivity| |discriminate].
  destruct (GetSingleActiveLayerPixels (video_codec settings)); [|reflexivity].
  destruct (GetEncoderBitrateLimitsForResolution _ _) as [limits|];
    [|reflexivity].
  destruct (RTC_DCHECK_IS_ON && _); [discriminate|].
  intros Heq. injection Heq as Heq. apply Z.leb_le in Heq.
  assert (Hcmp : (static_cast_uint32 (min_start_bitrate_bps limits)
                  <=? value_or (encoder_target_bitrate_bps_ this2) 0) = true)
    by (apply Z.leb_le; lia).
  rewrite Hcmp. reflexivity.
Qed.

(** X10: an entry whose minimum start bitrate is 0 or 1 never blocks:
    once the comparison is reached the target bitrate, a [uint32_t] that
    is not 0, is at least 1. *)
Theorem IsAdaptationUpAllowed_small_limit
    this input_state before after settings P limits :
  singlecast_limit_applies this before after settings P limits ->
  P <= frame_size_pixels limits ->
  uint32_range (value_or (encoder_target_bitrate_bps_ this) 0) ->
  0 <= min_start_bitrate_bps limits <= 1 ->
  result (IsAdaptationUpAllowed input_state before after) this = Returns true.
Proof.
  intros Happlies Htier Hrange Hsmall.
  rewrite (IsAdaptationUpAllowed_at_comparison _ _ _ _ _ _ _ Happlies).
  rewrite (RTC_DCHECK_GE_passes _ _ Htier).
  rewrite static_cast_uint32_same
    by (unfold uint32_range, uint32_modulus; lia).
  destruct Happlies as (_ & _ & Hrate & _). unfold uint32_range in Hrange.
  assert (Hcmp : (min_start_bitrate_bps limits
                  <=? value_or (encoder_target_bitrate_bps_ this) 0) = true)
    by (apply Z.leb_le; lia).
  rewrite Hcmp. reflexivity.
Qed.

(** X11: an entry whose minimum start bitrate is negative blocks every
    target bitrate below [2^31]: the converted minimum is at least
    [2^31]. *)
Theorem IsAdaptationUpAllowed_negative_limit_blocks
    this input_state before after settings P limits :
  singlecast_limit_applies this before after settings P limits ->
  P <= frame_size_pixels limits ->
  int_range (min_start_bitrate_bps limits) ->
  min_start_bitrate_bps limits < 0 ->
  value_or (encoder_target_bitrate_bps_ this) 0 < 2 ^ 31 ->
  result (IsAdaptationUpAllowed input_state before after) this = Returns false.
Proof.
  intros Happlies Htier Hint Hneg Hlow.
  rewrite (IsAdaptationUpAllowed_at_comparison _ _ _ _ _ _ _ Happlies).
  rewrite (RTC_DCHECK_GE_passes _ _ Htier).
  rewrite (static_cast_uint32_negative _ Hint Hneg).
  unfold int_range in Hint. unfold uint32_modulus.
  assert (Hcmp : (min_start_bitrate_bps limits + 2 ^ 32
                  <=? value_or (encoder_target_bitrate_bps_ this) 0) = false)
    by (apply Z.leb_gt; lia).
  rewrite Hcmp. reflexivity.
Qed.

(** X12: after any list of updates the object holds the settings pushed
    last and the target bitrate pushed last, each as it was stored
    before when the list has no update of its kind; no update stops. *)
Theorem notify_all_last (updates : list Update) this :
  notify_all updates this
  = (Returns tt,
     {| encoder_settings_ := last_settings updates (encoder_settings_ this);
        encoder_target_bitrate_bps_ :=
          last_target_bitrate updates (encoder_target_bitrate_bps_ this) |}).
Proof.
  revert this. induction updates as [|u rest IH]; intros this.
  - destruct this. reflexivity.
  - cbn [notify_all]. unfold bind.
    destruct u as [encoder_settings | encoder_target_bitrate_bps];
      cbn [notify last_settings last_target_bitrate];
      unfold OnEncoderSettingsUpdated, OnEncoderTargetBitrateUpdated;
      rewrite IH; reflexivity.
Qed.

End Edges.

(* ================================================================= *)
(** ** The further properties on concrete configurations *)

Lemma IsSimulcast_false_iff_witness :
  IsSimulcast {| simulcast_layers := [layer 320 180 false; layer 640 360 true] |}
  = Returns false <->
  exists lowest rest,
    [layer 320 180 false; layer 640 360 true] = lowest :: rest /\
    (rest = [] \/ (active lowest = false /\ ~ more_than_one_active rest)).
Proof.
  apply (IsSimulcast_false_iff
           {| simulcast_layers :=
                [layer 320 180 false; layer 640 360 true] |}).
  discriminate.
Defined.

Lemma IsSimulcast_true_inv_witness :
  (2 <= length (simulcast_layers (encoder_config settings_simulcast)))%nat /\
  1 <= count_if active (simulcast_layers (encoder_config settings_simulcast)).
Proof.
  apply IsSimulcast_true_inv. reflexivity.
Defined.

Lemma IsSimulcast_active_flags_only_witness :
  IsSimulcast {| simulcast_layers := [layer 320 180 false; layer 640 360 true] |}
  = IsSimulcast
      {| simulcast_layers := [layer 640 360 false; layer 1280 720 true] |}.
Proof.
  apply IsSimulcast_active_flags_only. reflexivity.
Defined.

Lemma IsSimulcast_more_active_witness :
  IsSimulcast {| simulcast_layers := [layer 320 180 true; layer 640 360 false] |}
  = Returns true /\
  IsSimulcast {| simulcast_layers := [layer 320 180 true; layer 640 360 true] |}
  = Returns true.
Proof.
  split; [reflexivity|].
  apply (IsSimulcast_more_active
           {| simulcast_layers := [layer 320 180 true; layer 640 360 false] |}).
  - cbn. repeat constructor.
  - reflexivity.
Defined.

Lemma IsAdaptationUpAllowed_returns_when_sound_witness :
  exists allowed,
    result (IsAdaptationUpAllowed tt (cap (640 * 360)) (cap (1280 * 720)))
           (constraint (Some (settings_360p 1500000)) (Some 1200000))
    = Returns allowed.
Proof.
  apply IsAdaptationUpAllowed_returns_when_sound.
  - intros settings Hset. cbn in Hset. injection Hset as <-. discriminate.
  - intros _ settings P limits Hset Hpx Hentry.
    cbn in Hset. injection Hset as <-.
    cbn in Hpx. injection Hpx as <-.
    cbn in Hentry. injection Hentry as <-.
    cbn. discriminate.
Defined.

Lemma IsAdaptationUpAllowed_depends_on_witness :
  result (IsAdaptationUpAllowed tt (cap (640 * 360)) (cap (1280 * 720)))
         (constraint (Some (settings_360p 1500000)) None)
  = result (IsAdaptationUpAllowed tt (cap (320 * 180)) uncapped)
           (constraint (Some (settings_360p 1500000)) (Some 0)).
Proof.
  apply IsAdaptationUpAllowed_depends_on; reflexivity.
Defined.

Lemma IsAdaptationUpAllowed_bitrate_monotone_witness :
  result (IsAdaptationUpAllowed tt (cap (640 * 360)) (cap (1280 * 720)))
         (constraint (Some (settings_360p 1500000)) (Some 1600000))
  = Returns true /\
  result (IsAdaptationUpAllowed tt (cap (640 * 360)) (cap (1280 * 720)))
         (constraint (Some (settings_360p 1500000)) (Some 2000000))
  = Returns true.
Proof.
  split; [reflexivity|].
  apply (IsAdaptationUpAllowed_bitrate_monotone
           (constraint (Some (settings_360p 1500000)) (Some 1600000))).
  - reflexivity.
  - reflexivity.
  - cbn. discriminate.
  - reflexivity.
Defined.

Lemma IsAdaptationUpAllowed_small_limit_witness :
  result (IsAdaptationUpAllowed tt (cap (640 * 360)) (cap (1280 * 720)))
         (constraint (Some (settings_360p 1)) (Some 5))
  = Returns true.
Proof.
  apply (IsAdaptationUpAllowed_small_limit
           (constraint (Some (settings_360p 1)) (Some 5))
           tt (cap (640 * 360)) (cap (1280 * 720))
           (settings_360p 1) (640 * 360) (limit (1280 * 720) 1)).
  - limit_applies.
  - cbn. discriminate.
  - unfold uint32_range. cbn. split; [discriminate | reflexivity].
  - cbn. split; discriminate.
Defined.

Lemma IsAdaptationUpAllowed_negative_limit_blocks_witness :
  result (IsAdaptationUpAllowed tt (cap (640 * 360)) (cap (1280 * 720)))
         (constraint (Some (settings_360p (-1))) (Some 1200000))
  = Returns false.
Proof.
  apply (IsAdaptationUpAllowed_negative_limit_blocks
           (constraint (Some (settings_360p (-1))) (Some 1200000))
           tt (cap (640 * 360)) (cap (1280 * 720))
           (settings_360p (-1)) (640 * 360) (limit (1280 * 720) (-1))).
  - limit_applies.
  - cbn. discriminate.
  - unfold int_range. cbn. split; [discriminate | reflexivity].
  - reflexivity.
  - reflexivity.
Defined.
